(** * DAGMC model viewer: tree presenter and selection-to-export mapper

    A shallow embedding of [gui.py] (class [DAGMCViewer]) and the properties
    its specification states about it.  The viewer is a thin layer over two
    external libraries, pydagmc (the mesh model) and Qt (the widgets); what
    the viewer reads from them is modelled as plain data:

    - a pydagmc entity is a record of the attributes the viewer reads;
    - a [QTreeWidgetItem] is its column-0 text, its [Qt.UserRole] data and
      its children; a [QTreeWidget] is its top-level items and its selected
      items; a [QPushButton] is its enabled flag;
    - a method of the viewer is a function on the viewer's state; where it
      can raise, or calls the external writer, that is part of its result. *)

From Stdlib Require Import Ascii.
From stdpp Require Import gmap strings list pretty.

Open Scope string_scope.
Open Scope list_scope.

#[local] Set Warnings "-register-all,-clear-no-such-hyp".

(** ** The pydagmc object graph, as the viewer reads it *)

(** [pydagmc.Surface]: the viewer reads [s.handle] (the MOAB entity handle,
    an unsigned 64-bit value) and formats the object itself with
    [f"Surface {surf}"], i.e. through the library's [__str__]. *)
Module Surface.
Record t := mk { handle : N; str : string }.
End Surface.

(** [pydagmc.Volume]: the viewer reads [vol.id] and [vol.surfaces]. *)
Module Volume.
Record t := mk { id : Z; surfaces : list Surface.t }.
End Volume.

(** [pydagmc.Group]: the viewer reads [group.id], [group.name],
    [group.volumes] (when it builds the tree) and [group.surfaces] (when it
    exports).  Both [volumes] and [surfaces] are attributes computed by the
    library, from the volume sets and from the surface sets that the group's
    entity set holds; the viewer never derives one from the other, so they
    are two fields here. *)
Module Group.
Record t := mk {
  id : Z;
  name : string;
  volumes : list Volume.t;
  surfaces : list Surface.t
}.
End Group.

(** Exceptions that reach the viewer's callers. *)
Inductive exn :=
| RuntimeError (msg : string)   (* raised by the library, on open or write *)
| AttributeError.               (* attribute access on [None] *)

(** [pydagmc.DAGModel]: the three top-level collections the viewer iterates,
    and [model.mb.write_file(output_path, output_sets=...)], the MOAB writer
    of the model, which returns or raises. *)
Module DAGModel.
Record t := mk {
  groups : list Group.t;
  volumes : list Volume.t;
  surfaces : list Surface.t;
  mb_write_file : string → list N → option exn
}.
End DAGModel.

(** What [item.data(0, Qt.UserRole)] can hold: an object of one of the three
    pydagmc classes.  The classes are distinct, so [isinstance] tells the
    constructors apart, and [isinstance(x, pydagmc.Group)] is a match on
    [AGroup].  An item that never had [setData] called yields [None]. *)
Inductive DAGSet :=
| AGroup (g : Group.t)
| AVolume (v : Volume.t)
| ASurface (s : Surface.t).

(** ** Qt widgets *)

Inductive QTreeWidgetItem :=
| TreeItem (text : string) (data : option DAGSet)
           (children : list QTreeWidgetItem).

Definition text (item : QTreeWidgetItem) : string :=
  match item with TreeItem t _ _ => t end.
Definition data (item : QTreeWidgetItem) : option DAGSet :=
  match item with TreeItem _ d _ => d end.
Definition children (item : QTreeWidgetItem) : list QTreeWidgetItem :=
  match item with TreeItem _ _ c => c end.

(** [QTreeWidgetItem([label])]: a fresh item, no data, no children. *)
Definition new_item (label : string) : QTreeWidgetItem :=
  TreeItem label None [].

(** [item.setData(0, Qt.UserRole, entity)] *)
Definition setData (item : QTreeWidgetItem) (entity : DAGSet)
  : QTreeWidgetItem :=
  TreeItem (text item) (Some entity) (children item).

(** [parent.addChild(child)]: the child goes after the existing children. *)
Definition addChild (parent child : QTreeWidgetItem) : QTreeWidgetItem :=
  TreeItem (text parent) (data parent) (children parent ++ [child]).

Record QTreeWidget := mkTree {
  topLevelItems : list QTreeWidgetItem;
  selectedItems : list QTreeWidgetItem
}.

(** [tree_widget.clear()]: removes all items and selections. *)
Definition clear (w : QTreeWidget) : QTreeWidget := mkTree [] [].

(** [tree_widget.addTopLevelItem(item)] *)
Definition addTopLevelItem (w : QTreeWidget) (item : QTreeWidgetItem)
  : QTreeWidget :=
  mkTree (topLevelItems w ++ [item]) (selectedItems w).

(** [tree_widget.collapseAll()] changes which nodes are drawn expanded, a
    display attribute this model does not carry. *)
Definition collapseAll (w : QTreeWidget) : QTreeWidget := w.

(** ** The viewer *)

Record DAGMCViewer := mkViewer {
  dag_model : option DAGModel.t;
  tree_widget : QTreeWidget;
  export_button : bool            (* [export_button.isEnabled()] *)
}.

(** State after [self.dag_model = None] and [init_ui()]: an empty tree and
    a disabled export button. *)
Definition init : DAGMCViewer := mkViewer None (mkTree [] []) false.

Definition create_item (label : string) (entity : DAGSet) : QTreeWidgetItem :=
  let item := new_item label in
  setData item entity.

(** Python's [for x in xs: body], threading the updated object. *)
Definition for_each {A S : Type} (xs : list A) (body : S → A → S) (s : S) : S :=
  fold_left body xs s.

Definition populate_tree (self : DAGMCViewer) : DAGMCViewer :=
  let tw := clear (tree_widget self) in
  match dag_model self with
  | None => mkViewer (dag_model self) tw (export_button self)
  | Some model =>
    let root_groups := new_item "Groups" in
    let root_groups :=
      for_each (DAGModel.groups model) (λ root_groups group,
        let group_label :=
          "Group " +:+ pretty (Group.id group) +:+ ": " +:+ Group.name group in
        let group_item := create_item group_label (AGroup group) in
        let group_item :=
          for_each (Group.volumes group) (λ group_item vol,
            let vol_item :=
              create_item ("Volume " +:+ pretty (Volume.id vol)) (AVolume vol) in
            let vol_item :=
              for_each (Volume.surfaces vol) (λ vol_item surf,
                let surf_item :=
                  create_item ("Surface " +:+ Surface.str surf) (ASurface surf) in
                addChild vol_item surf_item) vol_item in
            addChild group_item vol_item) group_item in
        addChild root_groups group_item) root_groups in
    let root_volumes := new_item "Volumes" in
    let root_volumes :=
      for_each (DAGModel.volumes model) (λ root_volumes vol,
        let vol_item :=
          create_item ("Volume " +:+ pretty (Volume.id vol)) (AVolume vol) in
        let vol_item :=
          for_each (Volume.surfaces vol) (λ vol_item surf,
            addChild vol_item
              (create_item ("Surface " +:+ Surface.str surf) (ASurface surf)))
            vol_item in
        addChild root_volumes vol_item) root_volumes in
    let root_surfaces := new_item "Surfaces" in
    let root_surfaces :=
      for_each (DAGModel.surfaces model) (λ root_surfaces surf,
        let surf_item :=
          create_item ("Surface " +:+ Surface.str surf) (ASurface surf) in
        addChild root_surfaces surf_item) root_surfaces in
    let tw := addTopLevelItem tw root_groups in
    let tw := addTopLevelItem tw root_volumes in
    let tw := addTopLevelItem tw root_surfaces in
    let tw := collapseAll tw in
    mkViewer (dag_model self) tw (export_button self)
  end.

(** [load_from_file]: [DAGModel(file_name)] either raises or returns the
    model; the constructor belongs to pydagmc and is a parameter.  The result
    is the viewer's state afterwards and the exception that left the method,
    if any. *)
Definition load_from_file (DAGModel_new : string → exn + DAGModel.t)
    (file_name : string) (self : DAGMCViewer) : DAGMCViewer * option exn :=
  match DAGModel_new file_name with
  | inl e => (self, Some e)
  | inr model =>
    let self := mkViewer (Some model) (tree_widget self) (export_button self) in
    (populate_tree self, None)
  end.

(** [load_file]: the open dialog returns the chosen file, or nothing when it
    is dismissed. *)
Definition load_file (DAGModel_new : string → exn + DAGModel.t)
    (file_dialog : option string) (self : DAGMCViewer)
  : DAGMCViewer * option exn :=
  match file_dialog with
  | Some file_name => load_from_file DAGModel_new file_name self
  | None => (self, None)
  end.

(** [__init__]: [if filename: self.load_from_file(filename)]; a missing or
    empty file name is falsy. *)
Definition DAGMCViewer_new (DAGModel_new : string → exn + DAGModel.t)
    (filename : option string) : DAGMCViewer * option exn :=
  let self := init in
  match filename with
  | Some file_name =>
    if bool_decide (file_name ≠ "")
    then load_from_file DAGModel_new file_name self
    else (self, None)
  | None => (self, None)
  end.

Definition reset_view (self : DAGMCViewer) : DAGMCViewer :=
  let self := mkViewer None (tree_widget self) (export_button self) in
  let self := mkViewer (dag_model self) (clear (tree_widget self))
                       (export_button self) in
  mkViewer (dag_model self) (tree_widget self) false.

Definition update_export_button_state (self : DAGMCViewer) : DAGMCViewer :=
  let selected_items := selectedItems (tree_widget self) in
  mkViewer (dag_model self) (tree_widget self)
           (bool_decide (selected_items ≠ [])).

(** The user changes the selection: Qt records the new selected items and
    emits [itemSelectionChanged], which [init_ui] connected to
    [update_export_button_state]. *)
Definition itemSelectionChanged (selection : list QTreeWidgetItem)
    (self : DAGMCViewer) : DAGMCViewer :=
  let tw := mkTree (topLevelItems (tree_widget self)) selection in
  update_export_button_state
    (mkViewer (dag_model self) tw (export_button self)).

(** *** Export *)

(** [selected_sets = [item.data(0, Qt.UserRole) for item in selected_items]] *)
Definition selected_sets (selected_items : list QTreeWidgetItem)
  : list (option DAGSet) :=
  data <$> selected_items.

(** One round of the loop over [selected_sets]: three independent [if]s. *)
Definition collect (surfaces_out : list Surface.t)
    (selected_set : option DAGSet) : list Surface.t :=
  let surfaces_out :=
    match selected_set with
    | Some (AGroup g) => surfaces_out ++ Group.surfaces g
    | _ => surfaces_out
    end in
  let surfaces_out :=
    match selected_set with
    | Some (AVolume v) => surfaces_out ++ Volume.surfaces v
    | _ => surfaces_out
    end in
  match selected_set with
  | Some (ASurface s) => surfaces_out ++ [s]
  | _ => surfaces_out
  end.

Definition surfaces_out (selected_sets : list (option DAGSet))
  : list Surface.t :=
  for_each selected_sets collect [].

(** [output_handles = {s.handle for s in surfaces_out}] *)
Definition output_handles (selected_items : list QTreeWidgetItem) : gset N :=
  list_to_set (Surface.handle <$> surfaces_out (selected_sets selected_items)).

(** [list(s)] for a Python set [s]: every element once, in an order that
    the interpreter derives from its hash table, hence from the values and
    from the order in which they were inserted.  The order is a parameter: a
    function from the sequence of insertions to the listing, together with
    the two facts the language guarantees. *)
Record set_listing := SetListing {
  list_of_set : list N → list N;
  list_of_set_NoDup : ∀ inserted, NoDup (list_of_set inserted);
  list_of_set_elem : ∀ inserted h, h ∈ list_of_set inserted ↔ h ∈ inserted
}.

(** [list(output_handles)], the argument [output_sets] of the writer. *)
Definition output_sets (py : set_listing)
    (selected_items : list QTreeWidgetItem) : list N :=
  list_of_set py
    (Surface.handle <$> surfaces_out (selected_sets selected_items)).

(** What [export_selected_entities] does to the outside world. *)
Inductive effect :=
| save_dialog_exec
| write_file (output_path : string) (output_sets : list N).

(** [export_selected_entities]: the save dialog returns the chosen path, or
    nothing when it is dismissed.  The method leaves the viewer's state as it
    is; its result is the trace of effects and the exception that left it.
    The call of the writer is not guarded: what the writer raises leaves the
    method. *)
Definition export_selected_entities (py : set_listing)
    (file_dialog : option string) (self : DAGMCViewer)
  : list effect * option exn :=
  let selected_items := selectedItems (tree_widget self) in
  if bool_decide (selected_items = []) then ([], None)
  else
    let output_sets := output_sets py selected_items in
    match file_dialog with
    | None => ([save_dialog_exec], None)
    | Some output_path =>
      match dag_model self with
      | None => ([save_dialog_exec], Some AttributeError)
      | Some model =>
        ([save_dialog_exec; write_file output_path output_sets],
         DAGModel.mb_write_file model output_path output_sets)
      end
    end.

(** ** The tree of section 4.2, written with maps

    These definitions follow the specification's description of the tree
    (three categories; Group, then its Volumes, then their Surfaces); the
    loops of [populate_tree] are compared with them below. *)

Definition surface_label (surf : Surface.t) : string :=
  "Surface " +:+ Surface.str surf.
Definition volume_label (vol : Volume.t) : string :=
  "Volume " +:+ pretty (Volume.id vol).
Definition group_label (group : Group.t) : string :=
  "Group " +:+ pretty (Group.id group) +:+ ": " +:+ Group.name group.

Definition surface_node (surf : Surface.t) : QTreeWidgetItem :=
  TreeItem (surface_label surf) (Some (ASurface surf)) [].
Definition volume_node (vol : Volume.t) : QTreeWidgetItem :=
  TreeItem (volume_label vol) (Some (AVolume vol))
           (surface_node <$> Volume.surfaces vol).
Definition group_node (group : Group.t) : QTreeWidgetItem :=
  TreeItem (group_label group) (Some (AGroup group))
           (volume_node <$> Group.volumes group).

Definition expected_tree (model : DAGModel.t) : list QTreeWidgetItem :=
  [ TreeItem "Groups" None (group_node <$> DAGModel.groups model);
    TreeItem "Volumes" None (volume_node <$> DAGModel.volumes model);
    TreeItem "Surfaces" None (surface_node <$> DAGModel.surfaces model) ].

(** The children of the top-level node(s) carrying [label]. *)
Definition category_children (label : string) (w : QTreeWidget)
  : list QTreeWidgetItem :=
  root ← filter (λ root, text root = label) (topLevelItems w); children root.

(** What one selected entry adds to [surfaces_out]. *)
Definition contribution (selected_set : option DAGSet) : list Surface.t :=
  match selected_set with
  | Some (AGroup g) => Group.surfaces g
  | Some (AVolume v) => Volume.surfaces v
  | Some (ASurface s) => [s]
  | None => []
  end.

(** The handles of a list of surfaces, as a set. *)
Definition handles (l : list Surface.t) : gset N :=
  list_to_set (Surface.handle <$> l).

(** ** Sample models

    The scenario of the specification: one group "G1" (id 1) holding one
    volume (id 10) bounded by two surfaces (handles 100 and 101).  The
    group's entity set holds the volume set only, and pydagmc lists for
    [Group.surfaces] the surface sets held by the group set itself: none. *)
Module Sample.
Definition s100 : Surface.t := Surface.mk 100 "100".
Definition s101 : Surface.t := Surface.mk 101 "101".
Definition v10 : Volume.t := Volume.mk 10 [s100; s101].
Definition g1 : Group.t := Group.mk 1 "G1" [v10] [].
(** A writer that fails below a directory it cannot write to. *)
Definition mb_write_file (output_path : string) (output_sets : list N)
  : option exn :=
  if bool_decide (output_path = "/proc/out.vtk")
  then Some (RuntimeError "write failed") else None.
Definition model : DAGModel.t :=
  DAGModel.mk [g1] [v10] [s100; s101] mb_write_file.
(** A listing of sets in increasing order of the handles. *)
Definition py : set_listing :=
  SetListing (λ inserted, elements (list_to_set inserted : gset N))
    (λ inserted, NoDup_elements (list_to_set inserted))
    (λ inserted h,
       iff_trans (elem_of_elements (list_to_set inserted) h)
                 (elem_of_list_to_set h inserted)).
Definition DAGModel_new (file_name : string) : exn + DAGModel.t :=
  if bool_decide (file_name = "model.h5m") then inr model
  else inl (RuntimeError "file not found").
Definition loaded : DAGMCViewer :=
  (DAGMCViewer_new DAGModel_new (Some "model.h5m")).1.
(** The same geometry in a group whose entity set also lists the two
    surfaces. *)
Definition g2 : Group.t := Group.mk 2 "G2" [v10] [s100; s101].
Definition model2 : DAGModel.t :=
  DAGModel.mk [g2] [v10] [s100; s101] mb_write_file.
(** Two groups and two volumes. *)
Definition s102 : Surface.t := Surface.mk 102 "102".
Definition v11 : Volume.t := Volume.mk 11 [s101; s102].
Definition model3 : DAGModel.t :=
  DAGModel.mk [g1; g2] [v10; v11] [s100; s101; s102] mb_write_file.
Definition loaded3 : DAGMCViewer :=
  (DAGMCViewer_new (λ _, inr model3) (Some "two.h5m")).1.
End Sample.

(** ** Nodes of the tree and the states the viewer can be in *)

(** An item and everything below it, parents before children. *)
Fixpoint subtree (item : QTreeWidgetItem) : list QTreeWidgetItem :=
  match item with
  | TreeItem _ _ c => item :: (c ≫= subtree)
  end.

(** Every item of the widget: what a user can click on. *)
Definition tree_nodes (w : QTreeWidget) : list QTreeWidgetItem :=
  topLevelItems w ≫= subtree.

(** The surfaces the loaded model reports anywhere: at top level, for a
    top-level volume, for a group, or for a volume of a group. *)
Definition model_surfaces (model : DAGModel.t) : list Surface.t :=
  DAGModel.surfaces model
  ++ (DAGModel.volumes model ≫= Volume.surfaces)
  ++ (DAGModel.groups model ≫= Group.surfaces)
  ++ (DAGModel.groups model ≫= λ g, Group.volumes g ≫= Volume.surfaces).

(** The states of a running viewer.  A viewer exists once [__init__] has
    returned; from then on the state changes through the slots that
    [init_ui] connects: the load button ([load_file]; when the load raises
    the state is the one it left), the reset button ([reset_view]) and a
    change of the selection, which can only hold items of the tree.  The
    export button calls [export_selected_entities], which leaves the state
    as it is. *)
Inductive reachable (DAGModel_new : string → exn + DAGModel.t)
  : DAGMCViewer → Prop :=
| reachable_new filename self :
    DAGMCViewer_new DAGModel_new filename = (self, None) →
    reachable DAGModel_new self
| reachable_load file_dialog self :
    reachable DAGModel_new self →
    reachable DAGModel_new (load_file DAGModel_new file_dialog self).1
| reachable_reset self :
    reachable DAGModel_new self →
    reachable DAGModel_new (reset_view self)
| reachable_select selection self :
    reachable DAGModel_new self →
    Forall (λ item, item ∈ tree_nodes (tree_widget self)) selection →
    reachable DAGModel_new (itemSelectionChanged selection self).

(** An entity belongs to a model when the model reports it: a group of the
    model; a volume at top level or of one of the groups; a surface at top
    level or of one of those volumes. *)
Definition volume_of (model : DAGModel.t) (v : Volume.t) : Prop :=
  v ∈ DAGModel.volumes model
  ∨ ∃ g, g ∈ DAGModel.groups model ∧ v ∈ Group.volumes g.

Definition belongs_to (model : DAGModel.t) (entity : DAGSet) : Prop :=
  match entity with
  | AGroup g => g ∈ DAGModel.groups model
  | AVolume v => volume_of model v
  | ASurface s =>
    s ∈ DAGModel.surfaces model
    ∨ ∃ v, volume_of model v ∧ s ∈ Volume.surfaces v
  end.

(** The tree shows the loaded model (nothing when there is none) and the
    selected items are items of the tree. *)
Definition consistent (self : DAGMCViewer) : Prop :=
  topLevelItems (tree_widget self)
  = match dag_model self with
    | Some model => expected_tree model
    | None => []
    end
  ∧ Forall (λ item, item ∈ tree_nodes (tree_widget self))
           (selectedItems (tree_widget self)).

(** Whether a character occurs in a string. *)
Fixpoint occurs (c : ascii) (s : string) : bool :=
  match s with
  | EmptyString => false
  | String c' s => bool_decide (c = c') || occurs c s
  end.

(** * Lemmas on the loops *)

Lemma for_each_addChild {A} (f : A → QTreeWidgetItem) (xs : list A) parent :
  for_each xs (λ parent x, addChild parent (f x)) parent
  = TreeItem (text parent) (data parent) (children parent ++ (f <$> xs)).
Proof.
  unfold for_each. revert parent.
  induction xs as [|x xs IH]; intros [t d c]; simpl.
  - by rewrite app_nil_r.
  - rewrite IH. simpl. by rewrite <- app_assoc.
Qed.

Lemma surface_loop vol :
  for_each (Volume.surfaces vol)
    (λ vol_item surf,
       addChild vol_item
         (create_item ("Surface " +:+ Surface.str surf) (ASurface surf)))
    (create_item ("Volume " +:+ pretty (Volume.id vol)) (AVolume vol))
  = volume_node vol.
Proof. by rewrite (for_each_addChild surface_node). Qed.

Lemma volume_loop group :
  for_each (Group.volumes group)
    (λ group_item vol,
       addChild group_item
         (for_each (Volume.surfaces vol)
            (λ vol_item surf,
               addChild vol_item
                 (create_item ("Surface " +:+ Surface.str surf) (ASurface surf)))
            (create_item ("Volume " +:+ pretty (Volume.id vol)) (AVolume vol))))
    (create_item
       ("Group " +:+ pretty (Group.id group) +:+ ": " +:+ Group.name group)
       (AGroup group))
  = group_node group.
Proof.
  rewrite (for_each_addChild (λ vol, for_each (Volume.surfaces vol) _ _)).
  unfold group_node. simpl. f_equal.
  apply list_fmap_ext. intros _ vol _. apply surface_loop.
Qed.

Lemma populate_tree_items self model :
  dag_model self = Some model →
  topLevelItems (tree_widget (populate_tree self)) = expected_tree model.
Proof.
  intros Hm. unfold populate_tree. rewrite Hm. simpl.
  unfold expected_tree. repeat f_equal.
  - rewrite (for_each_addChild (λ group, for_each (Group.volumes group) _ _)).
    simpl. f_equal. apply list_fmap_ext. intros _ group _. apply volume_loop.
  - rewrite (for_each_addChild (λ vol, for_each (Volume.surfaces vol) _ _)).
    simpl. f_equal. apply list_fmap_ext. intros _ vol _. apply surface_loop.
  - by rewrite (for_each_addChild surface_node).
Qed.

Lemma populate_tree_selection self :
  selectedItems (tree_widget (populate_tree self)) = [].
Proof. unfold populate_tree. by destruct (dag_model self). Qed.

Lemma category_children_groups self model :
  dag_model self = Some model →
  category_children "Groups" (tree_widget (populate_tree self))
  = group_node <$> DAGModel.groups model.
Proof.
  intros Hm. unfold category_children.
  rewrite (populate_tree_items _ _ Hm). simpl. by rewrite app_nil_r.
Qed.

Lemma category_children_volumes self model :
  dag_model self = Some model →
  category_children "Volumes" (tree_widget (populate_tree self))
  = volume_node <$> DAGModel.volumes model.
Proof.
  intros Hm. unfold category_children.
  rewrite (populate_tree_items _ _ Hm). simpl. by rewrite app_nil_r.
Qed.

Lemma category_children_surfaces self model :
  dag_model self = Some model →
  category_children "Surfaces" (tree_widget (populate_tree self))
  = surface_node <$> DAGModel.surfaces model.
Proof.
  intros Hm. unfold category_children.
  rewrite (populate_tree_items _ _ Hm). simpl. by rewrite app_nil_r.
Qed.

Lemma collect_contribution acc selected_set :
  collect acc selected_set = acc ++ contribution selected_set.
Proof.
  unfold collect, contribution.
  destruct selected_set as [[g|v|s]|]; simpl; by rewrite ?app_nil_r.
Qed.

Lemma for_each_collect sets acc :
  for_each sets collect acc = acc ++ (sets ≫= contribution).
Proof.
  unfold for_each. revert acc.
  induction sets as [|o sets IH]; intros acc; simpl.
  - by rewrite app_nil_r.
  - rewrite IH, collect_contribution. by rewrite <- app_assoc.
Qed.

Lemma surfaces_out_bind sets : surfaces_out sets = sets ≫= contribution.
Proof. unfold surfaces_out. by rewrite for_each_collect. Qed.

Lemma handles_app l1 l2 : handles (l1 ++ l2) = handles l1 ∪ handles l2.
Proof. unfold handles. rewrite fmap_app. apply list_to_set_app_L. Qed.

Lemma elem_of_handles h l :
  h ∈ handles l ↔ ∃ s, s ∈ l ∧ Surface.handle s = h.
Proof.
  unfold handles. rewrite elem_of_list_to_set, list_elem_of_fmap.
  split; intros (s & H1 & H2); exists s; by split.
Qed.

Lemma output_handles_nil : output_handles [] = ∅.
Proof. reflexivity. Qed.

Lemma output_handles_single item :
  output_handles [item] = handles (contribution (data item)).
Proof.
  unfold output_handles, selected_sets. rewrite surfaces_out_bind. simpl.
  by rewrite app_nil_r.
Qed.

Lemma output_handles_app sel1 sel2 :
  output_handles (sel1 ++ sel2) = output_handles sel1 ∪ output_handles sel2.
Proof.
  unfold output_handles, selected_sets.
  rewrite !surfaces_out_bind, fmap_app, bind_app. apply handles_app.
Qed.

Lemma output_handles_cons item sel :
  output_handles (item :: sel)
  = handles (contribution (data item)) ∪ output_handles sel.
Proof.
  change (item :: sel) with ([item] ++ sel).
  by rewrite output_handles_app, output_handles_single.
Qed.

Lemma handles_bind {A} (f : A → list Surface.t) (xs : list A) :
  handles (xs ≫= f) = ⋃ ((λ x, handles (f x)) <$> xs).
Proof.
  induction xs as [|x xs IH]; [done|].
  by rewrite bind_cons, fmap_cons, union_list_cons, handles_app, IH.
Qed.

Lemma output_handles_bind sel :
  output_handles sel = handles (sel ≫= λ item, contribution (data item)).
Proof.
  induction sel as [|item sel IH]; [done|].
  by rewrite output_handles_cons, bind_cons, handles_app, IH.
Qed.

Lemma output_handles_surface_nodes l :
  output_handles (surface_node <$> l) = handles l.
Proof.
  induction l as [|s l IH]; [done|].
  rewrite fmap_cons, output_handles_cons, IH. simpl.
  change (s :: l) with ([s] ++ l). by rewrite handles_app.
Qed.

Lemma output_handles_volume_nodes l :
  ⋃ ((λ V, output_handles [V]) <$> (volume_node <$> l))
  = handles (l ≫= Volume.surfaces).
Proof.
  rewrite handles_bind, <- list_fmap_compose. f_equal.
Qed.

Lemma size_union_eq_iff (X Y : gset N) : Y ⊆ X ↔ size (X ∪ Y) = size X.
Proof.
  split.
  - intros HYX. by replace (X ∪ Y) with X by set_solver.
  - intros Hsz.
    assert (X ∪ Y = X) as Heq; [|set_solver].
    symmetry. apply leibniz_equiv, set_subseteq_size_equiv; [set_solver|lia].
Qed.

(** * The tree presenter *)

(** C4: for a loaded model, [populate_tree] leaves exactly three top-level
    nodes labelled "Groups", "Volumes" and "Surfaces", none of them backed by
    an entity; under them there is one node per Group (expanded into its
    Volumes and their Surfaces), one per top-level Volume (with its Surfaces)
    and one per top-level Surface, in the order the model lists them; each
    label is a function of the entity: "Group <id>: <name>", "Volume <id>",
    and "Surface " followed by the library's rendering of the surface. *)
Theorem populate_tree_builds_expected_tree self model :
  dag_model self = Some model →
  topLevelItems (tree_widget (populate_tree self)) = expected_tree model
  ∧ text <$> topLevelItems (tree_widget (populate_tree self))
    = ["Groups"; "Volumes"; "Surfaces"]
  ∧ data <$> topLevelItems (tree_widget (populate_tree self))
    = [None; None; None]
  ∧ category_children "Groups" (tree_widget (populate_tree self))
    = group_node <$> DAGModel.groups model
  ∧ category_children "Volumes" (tree_widget (populate_tree self))
    = volume_node <$> DAGModel.volumes model
  ∧ category_children "Surfaces" (tree_widget (populate_tree self))
    = surface_node <$> DAGModel.surfaces model
  ∧ text <$> category_children "Groups" (tree_widget (populate_tree self))
    = (λ group, "Group " +:+ pretty (Group.id group) +:+ ": "
                +:+ Group.name group) <$> DAGModel.groups model
  ∧ text <$> category_children "Volumes" (tree_widget (populate_tree self))
    = (λ vol, "Volume " +:+ pretty (Volume.id vol)) <$> DAGModel.volumes model
  ∧ text <$> category_children "Surfaces" (tree_widget (populate_tree self))
    = (λ surf, "Surface " +:+ Surface.str surf) <$> DAGModel.surfaces model.
Proof.
  intros Hm.
  rewrite (category_children_groups _ _ Hm), (category_children_volumes _ _ Hm),
    (category_children_surfaces _ _ Hm), (populate_tree_items _ _ Hm).
  rewrite <- !list_fmap_compose.
  by split_and!.
Qed.

Lemma populate_tree_builds_expected_tree_witness :
  dag_model Sample.loaded = Some Sample.model
  ∧ text <$> topLevelItems (tree_widget (populate_tree Sample.loaded))
    = ["Groups"; "Volumes"; "Surfaces"].
Proof.
  split; [reflexivity|].
  apply (populate_tree_builds_expected_tree Sample.loaded Sample.model).
  reflexivity.
Defined.

(** C5: building the tree again on the same model gives the same viewer
    state, hence the same tree (labels, nodes, order); the tree that was
    displayed before the build has no influence on the result, so a second
    build replaces the first tree and does not add to it. *)
Theorem populate_tree_idempotent self :
  populate_tree (populate_tree self) = populate_tree self
  ∧ (∀ tw enabled,
       tree_widget (populate_tree (mkViewer (dag_model self) tw enabled))
       = tree_widget (populate_tree self))
  ∧ length (topLevelItems (tree_widget (populate_tree (populate_tree self))))
    = length (topLevelItems (tree_widget (populate_tree self))).
Proof.
  assert (populate_tree (populate_tree self) = populate_tree self) as Hidem.
  { unfold populate_tree. by destruct (dag_model self). }
  split_and!; [done| |by rewrite Hidem].
  intros tw enabled. unfold populate_tree. simpl.
  by destruct (dag_model self).
Qed.

(** C6: when the library's constructor raises for the given path,
    [load_from_file] (and [load_file] with that path chosen) ends with that
    exception and the viewer's state, model and tree included, is the one
    before the call. *)
Theorem load_failure_leaves_state DAGModel_new file_name self e :
  DAGModel_new file_name = inl e →
  load_from_file DAGModel_new file_name self = (self, Some e)
  ∧ load_file DAGModel_new (Some file_name) self = (self, Some e)
  ∧ dag_model (load_from_file DAGModel_new file_name self).1 = dag_model self
  ∧ tree_widget (load_from_file DAGModel_new file_name self).1
    = tree_widget self.
Proof.
  intros He. unfold load_file, load_from_file. by rewrite He.
Qed.

Lemma load_failure_leaves_state_witness :
  Sample.DAGModel_new "missing.h5m" = inl (RuntimeError "file not found")
  ∧ load_from_file Sample.DAGModel_new "missing.h5m" Sample.loaded
    = (Sample.loaded, Some (RuntimeError "file not found")).
Proof.
  split; [reflexivity|].
  apply (load_failure_leaves_state Sample.DAGModel_new "missing.h5m"
           Sample.loaded (RuntimeError "file not found")).
  reflexivity.
Defined.

(** C7: [reset_view] discards the model, leaves the tree with no top-level
    node (and nothing selected) and disables the export button, whatever
    the state before it. *)
Theorem reset_view_clears self :
  dag_model (reset_view self) = None
  ∧ topLevelItems (tree_widget (reset_view self)) = []
  ∧ length (topLevelItems (tree_widget (reset_view self))) = 0
  ∧ selectedItems (tree_widget (reset_view self)) = []
  ∧ export_button (reset_view self) = false.
Proof. by split_and!. Qed.

(** * The selection-to-export mapper *)

Lemma list_of_set_nil py : list_of_set py [] = [].
Proof.
  destruct (list_of_set py []) as [|h l] eqn:Hl; [done|].
  assert (h ∈ list_of_set py []) as Hh by (rewrite Hl; apply list_elem_of_here).
  apply list_of_set_elem in Hh. by apply elem_of_nil in Hh.
Qed.

Lemma NoDup_output_sets py sel : NoDup (output_sets py sel).
Proof. apply list_of_set_NoDup. Qed.

Lemma elem_of_output_sets_handles py sel h :
  h ∈ output_sets py sel ↔ h ∈ output_handles sel.
Proof.
  unfold output_sets, output_handles.
  by rewrite list_of_set_elem, elem_of_list_to_set.
Qed.

Lemma output_sets_empty py sel :
  output_handles sel = ∅ → output_sets py sel = [].
Proof.
  intros Hempty. destruct (output_sets py sel) as [|h l] eqn:Hl; [done|].
  assert (h ∈ output_sets py sel) as Hh by (rewrite Hl; apply list_elem_of_here).
  apply elem_of_output_sets_handles in Hh. rewrite Hempty in Hh.
  by apply elem_of_empty in Hh.
Qed.

(** C8: with nothing selected the resolved handle set is empty and
    [export_selected_entities] returns at once: no save dialog is shown, the
    writer is not called, nothing is raised. *)
Theorem empty_selection_export_noop py file_dialog self :
  selectedItems (tree_widget self) = [] →
  output_handles (selectedItems (tree_widget self)) = ∅
  ∧ output_sets py (selectedItems (tree_widget self)) = []
  ∧ export_selected_entities py file_dialog self = ([], None).
Proof.
  intros Hsel. unfold export_selected_entities. rewrite Hsel.
  split_and!; [done| |done].
  by apply output_sets_empty.
Qed.

Lemma empty_selection_export_noop_witness :
  selectedItems (tree_widget Sample.loaded) = []
  ∧ export_selected_entities Sample.py (Some "out.vtk") Sample.loaded
    = ([], None).
Proof.
  split; [reflexivity|].
  apply (empty_selection_export_noop Sample.py (Some "out.vtk") Sample.loaded).
  reflexivity.
Defined.

(** The guard of [export_selected_entities] looks at the selected items,
    not at the handles they resolve to: with only a category node selected
    the writer is called with an empty list of handles. *)
Remark export_of_category_node_only py :
  (export_selected_entities py (Some "out.vtk")
     (itemSelectionChanged [TreeItem "Groups" None []] Sample.loaded)).1
  = [save_dialog_exec; write_file "out.vtk" []].
Proof.
  unfold export_selected_entities. simpl.
  by rewrite (output_sets_empty py [TreeItem "Groups" None []]).
Qed.

(** C9: after a selection-change notification the export button is enabled
    exactly when some item is selected; the slot itself leaves the tree and
    the selection as they are; and when the button ends up disabled, a call
    of the export method would return without effect and without raising. *)
Theorem export_button_tracks_selection py selection self :
  (export_button (update_export_button_state self) = true
   ↔ selectedItems (tree_widget self) ≠ [])
  ∧ tree_widget (update_export_button_state self) = tree_widget self
  ∧ selectedItems (tree_widget (itemSelectionChanged selection self))
    = selection
  ∧ (export_button (itemSelectionChanged selection self) = true
     ↔ selection ≠ [])
  ∧ (export_button (itemSelectionChanged selection self) = false
     ↔ ∀ file_dialog,
         export_selected_entities py file_dialog
           (itemSelectionChanged selection self) = ([], None)).
Proof.
  split_and!.
  - apply bool_decide_eq_true.
  - done.
  - done.
  - apply bool_decide_eq_true.
  - unfold itemSelectionChanged, update_export_button_state,
      export_selected_entities. simpl.
    rewrite bool_decide_eq_false. split.
    + intros Hsel file_dialog. by rewrite bool_decide_eq_true_2 by (by apply dec_stable).
    + intros Hexp Hne. specialize (Hexp None).
      by rewrite bool_decide_eq_false_2 in Hexp.
Qed.

(** C10: a top-level node of the built tree carries no entity, resolves to
    no handle, and can be dropped from any selection without changing the
    resolved set; every handle of a resolved set comes from a selected item
    that carries a Group, a Volume or a Surface. *)
Theorem category_nodes_contribute_nothing self root sel1 sel2 :
  root ∈ topLevelItems (tree_widget (populate_tree self)) →
  data root = None
  ∧ output_handles [root] = ∅
  ∧ output_handles (sel1 ++ root :: sel2) = output_handles (sel1 ++ sel2)
  ∧ (∀ h, h ∈ output_handles (sel1 ++ root :: sel2) →
       ∃ item entity, item ∈ sel1 ++ sel2 ∧ data item = Some entity
                      ∧ h ∈ output_handles [item]).
Proof.
  intros Hroot.
  assert (data root = None) as Hdata.
  { destruct (dag_model self) as [model|] eqn:Hm.
    - rewrite (populate_tree_items _ _ Hm) in Hroot.
      unfold expected_tree in Hroot.
      rewrite !elem_of_cons, elem_of_nil in Hroot.
      by destruct Hroot as [->|[->|[->|[]]]].
    - unfold populate_tree in Hroot. rewrite Hm in Hroot.
      by apply elem_of_nil in Hroot. }
  assert (output_handles [root] = ∅) as Hempty.
  { by rewrite output_handles_single, Hdata. }
  assert (output_handles (sel1 ++ root :: sel2) = output_handles (sel1 ++ sel2))
    as Hdrop.
  { change (root :: sel2) with ([root] ++ sel2).
    rewrite !output_handles_app, Hempty. set_solver. }
  split_and!; [done..|].
  intros h. rewrite Hdrop, output_handles_bind, elem_of_handles.
  intros (s & Hs & <-). apply list_elem_of_bind in Hs as (item & Hs & Hitem).
  destruct (data item) as [entity|] eqn:Hd; [|by apply elem_of_nil in Hs].
  exists item, entity. split_and!; [done..|].
  rewrite output_handles_single, Hd. apply elem_of_handles. by exists s.
Qed.

Lemma category_nodes_contribute_nothing_witness :
  TreeItem "Groups" None [group_node Sample.g1]
    ∈ topLevelItems (tree_widget (populate_tree Sample.loaded))
  ∧ output_handles
      ([volume_node Sample.v10]
         ++ TreeItem "Groups" None [group_node Sample.g1] :: [])
    = output_handles ([volume_node Sample.v10] ++ []).
Proof.
  split; [apply list_elem_of_here|].
  apply (category_nodes_contribute_nothing Sample.loaded
           (TreeItem "Groups" None [group_node Sample.g1])
           [volume_node Sample.v10] []).
  apply list_elem_of_here.
Defined.

(** C2: selecting every child of the "Surfaces" category resolves to the
    handles of the model's top-level surfaces: the resolved set is the set
    of those handles, and the list handed to the writer holds each of them,
    nothing else, and no handle twice. *)
Theorem surfaces_category_resolves_to_surfaces py self model :
  dag_model self = Some model →
  output_handles
    (category_children "Surfaces" (tree_widget (populate_tree self)))
  = handles (DAGModel.surfaces model)
  ∧ NoDup (output_sets py
             (category_children "Surfaces" (tree_widget (populate_tree self))))
  ∧ (∀ h, h ∈ output_sets py
                (category_children "Surfaces"
                   (tree_widget (populate_tree self)))
          ↔ ∃ s, s ∈ DAGModel.surfaces model ∧ Surface.handle s = h).
Proof.
  intros Hm. rewrite (category_children_surfaces _ _ Hm).
  split_and!; [apply output_handles_surface_nodes|apply NoDup_output_sets|].
  intros h.
  rewrite elem_of_output_sets_handles, output_handles_surface_nodes.
  apply elem_of_handles.
Qed.

Lemma surfaces_category_resolves_to_surfaces_witness :
  dag_model Sample.loaded = Some Sample.model
  ∧ output_handles
      (category_children "Surfaces" (tree_widget (populate_tree Sample.loaded)))
    = handles [Sample.s100; Sample.s101].
Proof.
  split; [reflexivity|].
  apply (surfaces_category_resolves_to_surfaces Sample.py Sample.loaded
           Sample.model).
  reflexivity.
Defined.

(** ** Groups *)

(** What the Group branch of the export computes: a selected Group node
    resolves to the handles of the group's own [surfaces] attribute; its
    Volume nodes, selected one by one, resolve together to the handles of
    the surfaces of the group's volumes, which is what the tree shows below
    the Group node.  The two agree exactly when the library reports for the
    group the same handles as for its volumes taken together. *)
Theorem group_node_resolves_to_group_surfaces self model G :
  dag_model self = Some model →
  G ∈ category_children "Groups" (tree_widget (populate_tree self)) →
  ∃ g, g ∈ DAGModel.groups model
       ∧ data G = Some (AGroup g)
       ∧ children G = volume_node <$> Group.volumes g
       ∧ output_handles [G] = handles (Group.surfaces g)
       ∧ ⋃ ((λ V, output_handles [V]) <$> children G)
         = handles (Group.volumes g ≫= Volume.surfaces)
       ∧ (handles (Group.surfaces g)
          = handles (Group.volumes g ≫= Volume.surfaces)
          ↔ output_handles [G] = ⋃ ((λ V, output_handles [V]) <$> children G)).
Proof.
  intros Hm HG. rewrite (category_children_groups _ _ Hm) in HG.
  apply list_elem_of_fmap in HG as (g & -> & Hg).
  exists g. simpl.
  rewrite output_handles_single, output_handles_volume_nodes. simpl.
  by split_and!.
Qed.

Lemma group_node_resolves_to_group_surfaces_witness :
  dag_model Sample.loaded = Some Sample.model
  ∧ group_node Sample.g1
      ∈ category_children "Groups" (tree_widget (populate_tree Sample.loaded))
  ∧ ∃ g, g ∈ DAGModel.groups Sample.model
         ∧ data (group_node Sample.g1) = Some (AGroup g)
         ∧ children (group_node Sample.g1) = volume_node <$> Group.volumes g
         ∧ output_handles [group_node Sample.g1] = handles (Group.surfaces g)
         ∧ ⋃ ((λ V, output_handles [V]) <$> children (group_node Sample.g1))
           = handles (Group.volumes g ≫= Volume.surfaces)
         ∧ (handles (Group.surfaces g)
            = handles (Group.volumes g ≫= Volume.surfaces)
            ↔ output_handles [group_node Sample.g1]
              = ⋃ ((λ V, output_handles [V])
                     <$> children (group_node Sample.g1))).
Proof.
  split; [reflexivity|]. split; [apply list_elem_of_here|].
  apply (group_node_resolves_to_group_surfaces Sample.loaded Sample.model
           (group_node Sample.g1)).
  - reflexivity.
  - apply list_elem_of_here.
Defined.

(** C1: the export of a selected Group node is required to resolve to the
    union of what its Volumes resolve to.  On the scenario of the
    specification the tree shows group "G1" with volume 10 and surfaces 100
    and 101 below it; the Volume node resolves to the handles 100 and 101,
    but the Group node resolves to no handle, because the Group branch reads
    the group's own [surfaces] attribute and never goes through its
    volumes. *)
Lemma group_node_differs_from_its_volumes :
  dag_model Sample.loaded = Some Sample.model
  ∧ category_children "Groups" (tree_widget Sample.loaded)
    = [group_node Sample.g1]
  ∧ children (group_node Sample.g1) = [volume_node Sample.v10]
  ∧ output_handles [group_node Sample.g1] = ∅
  ∧ ⋃ ((λ V, output_handles [V]) <$> children (group_node Sample.g1))
    = {[100%N; 101%N]}
  ∧ output_handles [group_node Sample.g1]
    ≠ ⋃ ((λ V, output_handles [V]) <$> children (group_node Sample.g1)).
Proof.
  split_and!; [reflexivity..| |].
  - apply (bool_decide_unpack _). by vm_compute.
  - apply (bool_decide_unpack _). by vm_compute.
Qed.

(** What the export computes for a Group node [G] selected together with
    one of its Volume nodes [V]: the handles of the group's own [surfaces]
    together with those of the volume's surfaces; that has the size of the
    Group-only result exactly when the handles of the volume's surfaces are
    among those the library reports for the group.  A Surface node selected
    together with its Volume node adds nothing. *)
Theorem group_and_own_volume_resolve py self model G V :
  dag_model self = Some model →
  G ∈ category_children "Groups" (tree_widget (populate_tree self)) →
  V ∈ children G →
  ∃ g v, data G = Some (AGroup g) ∧ data V = Some (AVolume v)
         ∧ v ∈ Group.volumes g
         ∧ output_handles [G; V]
           = handles (Group.surfaces g) ∪ handles (Volume.surfaces v)
         ∧ (handles (Volume.surfaces v) ⊆ handles (Group.surfaces g)
            ↔ size (output_handles [G; V]) = size (output_handles [G]))
         ∧ (∀ S, S ∈ children V →
              output_handles [V; S] = output_handles [V])
         ∧ (∀ item sel, output_handles [item] ⊆ output_handles sel →
              output_handles (item :: sel) = output_handles sel)
         ∧ (∀ sel, NoDup (output_sets py sel)).
Proof.
  intros Hm HG HV. rewrite (category_children_groups _ _ Hm) in HG.
  apply list_elem_of_fmap in HG as (g & -> & Hg). simpl in HV.
  apply list_elem_of_fmap in HV as (v & -> & Hv).
  exists g, v.
  assert (output_handles [group_node g; volume_node v]
          = handles (Group.surfaces g) ∪ handles (Volume.surfaces v)) as HGV.
  { rewrite output_handles_cons, output_handles_single. done. }
  split_and!; [done..| | | |].
  - rewrite HGV, output_handles_single. apply size_union_eq_iff.
  - intros S HS. simpl in HS.
    apply list_elem_of_fmap in HS as (s & -> & Hs).
    rewrite output_handles_cons, !output_handles_single. simpl.
    assert (handles [s] ⊆ handles (Volume.surfaces v)); [|set_solver].
    intros h (s' & Hs' & <-)%elem_of_handles.
    apply list_elem_of_singleton in Hs' as ->.
    apply elem_of_handles. by exists s.
  - intros item sel Hsub.
    rewrite output_handles_cons, <- output_handles_single. set_solver.
  - intros sel. apply NoDup_output_sets.
Qed.

Lemma group_and_own_volume_resolve_witness :
  dag_model (populate_tree (mkViewer (Some Sample.model2) (mkTree [] []) false))
  = Some Sample.model2
  ∧ size (output_handles [group_node Sample.g2; volume_node Sample.v10])
    = size (output_handles [group_node Sample.g2]).
Proof.
  split; [reflexivity|].
  destruct (group_and_own_volume_resolve Sample.py
              (mkViewer (Some Sample.model2) (mkTree [] []) false)
              Sample.model2 (group_node Sample.g2) (volume_node Sample.v10))
    as (g & v & HG & HV & _ & _ & Hsize & _).
  - reflexivity.
  - apply list_elem_of_here.
  - apply list_elem_of_here.
  - injection HG as <-. injection HV as <-.
    apply Hsize. by vm_compute.
Defined.

(** C3: a Group selected together with one of its own Volumes is required
    to resolve to as many handles as the Group alone.  On the scenario of
    the specification the Group node of "G1" and its Volume node together
    resolve to two handles, the Group node alone to none: the Group branch
    reads the group's own [surfaces] attribute and misses the surfaces of
    the group's volumes. *)
Lemma group_and_own_volume_larger_than_group :
  dag_model Sample.loaded = Some Sample.model
  ∧ group_node Sample.g1 ∈ category_children "Groups" (tree_widget Sample.loaded)
  ∧ volume_node Sample.v10 ∈ children (group_node Sample.g1)
  ∧ Sample.v10 ∈ Group.volumes Sample.g1
  ∧ size (output_handles [group_node Sample.g1; volume_node Sample.v10]) = 2
  ∧ size (output_handles [group_node Sample.g1]) = 0
  ∧ size (output_handles [group_node Sample.g1; volume_node Sample.v10])
    ≠ size (output_handles [group_node Sample.g1]).
Proof.
  split_and!; [reflexivity|apply list_elem_of_here..| | |].
  - by vm_compute.
  - by vm_compute.
  - by vm_compute.
Qed.

(** * Further properties of the viewer *)

(** ** Loading *)

(** A successful load stores the model returned by the library, shows the
    tree of that model and nothing else, leaves nothing selected and raises
    nothing; what was loaded or shown before plays no part. *)
Theorem load_success_replaces_model_and_tree
    DAGModel_new file_name self model :
  DAGModel_new file_name = inr model →
  (load_from_file DAGModel_new file_name self).2 = None
  ∧ dag_model (load_from_file DAGModel_new file_name self).1 = Some model
  ∧ topLevelItems (tree_widget (load_from_file DAGModel_new file_name self).1)
    = expected_tree model
  ∧ selectedItems (tree_widget (load_from_file DAGModel_new file_name self).1)
    = []
  ∧ (∀ other,
       tree_widget (load_from_file DAGModel_new file_name other).1
       = tree_widget (load_from_file DAGModel_new file_name self).1).
Proof.
  intros Hnew. unfold load_from_file. rewrite Hnew. cbn [fst snd].
  split_and!.
  - done.
  - reflexivity.
  - by apply populate_tree_items.
  - apply populate_tree_selection.
  - intros other. reflexivity.
Qed.

Lemma load_success_replaces_model_and_tree_witness :
  Sample.DAGModel_new "model.h5m" = inr Sample.model
  ∧ topLevelItems
      (tree_widget
         (load_from_file Sample.DAGModel_new "model.h5m"
            (mkViewer (Some Sample.model2)
               (mkTree (expected_tree Sample.model2) []) true)).1)
    = expected_tree Sample.model.
Proof.
  split; [reflexivity|].
  apply (load_success_replaces_model_and_tree Sample.DAGModel_new "model.h5m"
           (mkViewer (Some Sample.model2)
              (mkTree (expected_tree Sample.model2) []) true) Sample.model).
  reflexivity.
Defined.

(** The constructor of the viewer fails exactly when a non-empty file name
    is given and the library raises for it; with no file name, or an empty
    one, the library is not consulted and the viewer starts with no model,
    an empty tree and the export button disabled. *)
Theorem DAGMCViewer_new_outcome DAGModel_new filename :
  (∀ e, (DAGMCViewer_new DAGModel_new filename).2 = Some e
        ↔ ∃ file_name, filename = Some file_name ∧ file_name ≠ ""
                       ∧ DAGModel_new file_name = inl e)
  ∧ (filename = None ∨ filename = Some "" →
     DAGMCViewer_new DAGModel_new filename = (init, None))
  ∧ (∀ self, DAGMCViewer_new DAGModel_new filename = (self, None) →
       topLevelItems (tree_widget self)
       = match dag_model self with
         | Some model => expected_tree model
         | None => []
         end
       ∧ selectedItems (tree_widget self) = []
       ∧ export_button self = false).
Proof.
  unfold DAGMCViewer_new, load_from_file.
  destruct filename as [file_name|]; [|split_and!].
  - destruct (decide (file_name = "")) as [->|Hne].
    + split_and!.
      * intros e; split; [done|]. by intros (f & [= <-] & Hf & _).
      * done.
      * by intros self [= <-].
    + rewrite bool_decide_eq_true_2 by done.
      destruct (DAGModel_new file_name) as [e'|model] eqn:Hnew; simpl.
      * split_and!.
        -- intros e; split.
           ++ intros [= <-]. by exists file_name.
           ++ intros (f & [= <-] & _ & Hf). congruence.
        -- by intros [|[= ->]].
        -- by intros self.
      * split_and!.
        -- intros e; split; [done|].
           intros (f & [= <-] & _ & Hf). congruence.
        -- by intros [|[= ->]].
        -- intros self [= <-]. split_and!.
           ++ by apply populate_tree_items.
           ++ apply populate_tree_selection.
           ++ reflexivity.
  - intros e; split; [done|]. by intros (f & ? & _).
  - done.
  - by intros self [= <-].
Qed.

(** ** Exporting *)

Lemma elem_of_output_sets py sel h :
  h ∈ output_sets py sel
  ↔ ∃ item s, item ∈ sel ∧ s ∈ contribution (data item)
              ∧ Surface.handle s = h.
Proof.
  rewrite elem_of_output_sets_handles, output_handles_bind, elem_of_handles.
  split.
  - intros (s & (item & Hs & Hitem)%list_elem_of_bind & <-).
    by exists item, s.
  - intros (item & s & Hitem & Hs & <-). exists s. split; [|done].
    apply list_elem_of_bind. by exists item.
Qed.

(** The writer is called only from a non-empty selection, after the save
    dialog was accepted, and with a model loaded; it then receives the
    chosen path and the resolved handles, each once: a handle is passed
    exactly when it is the handle of a surface contributed by a selected
    item.  The call is not guarded, so the method ends as the writer does:
    what the writer raises leaves the method. *)
Theorem export_calls_writer_only_with_selection
    py file_dialog self output_path handles_written :
  write_file output_path handles_written
    ∈ (export_selected_entities py file_dialog self).1 →
  selectedItems (tree_widget self) ≠ []
  ∧ file_dialog = Some output_path
  ∧ (∃ model, dag_model self = Some model
              ∧ (export_selected_entities py file_dialog self).2
                = DAGModel.mb_write_file model output_path handles_written)
  ∧ handles_written = output_sets py (selectedItems (tree_widget self))
  ∧ NoDup handles_written
  ∧ (∀ h, h ∈ handles_written
          ↔ ∃ item s, item ∈ selectedItems (tree_widget self)
                      ∧ s ∈ contribution (data item)
                      ∧ Surface.handle s = h).
Proof.
  unfold export_selected_entities.
  destruct (decide (selectedItems (tree_widget self) = [])) as [Hsel|Hsel].
  { rewrite bool_decide_eq_true_2 by done. by intros ?%elem_of_nil. }
  rewrite bool_decide_eq_false_2 by done.
  destruct file_dialog as [path|]; [destruct (dag_model self) as [model|]|];
    simpl; rewrite ?elem_of_cons, ?elem_of_nil; intros Hin;
    try (by destruct Hin as [|[|[]]]); try (by destruct Hin as [|[]]).
  destruct Hin as [|[[= <- ->]|[]]]; [done|].
  split_and!; [done|done|by exists model|done| |].
  - apply NoDup_output_sets.
  - intros h. apply elem_of_output_sets.
Qed.

Lemma export_calls_writer_only_with_selection_witness :
  write_file "/proc/out.vtk" (output_sets Sample.py [volume_node Sample.v10])
    ∈ (export_selected_entities Sample.py (Some "/proc/out.vtk")
         (itemSelectionChanged [volume_node Sample.v10] Sample.loaded)).1
  ∧ ∃ model,
      dag_model (itemSelectionChanged [volume_node Sample.v10] Sample.loaded)
      = Some model
      ∧ (export_selected_entities Sample.py (Some "/proc/out.vtk")
           (itemSelectionChanged [volume_node Sample.v10] Sample.loaded)).2
        = DAGModel.mb_write_file model "/proc/out.vtk"
            (output_sets Sample.py [volume_node Sample.v10]).
Proof.
  split; [apply list_elem_of_further, list_elem_of_here|].
  apply (export_calls_writer_only_with_selection Sample.py
           (Some "/proc/out.vtk")
           (itemSelectionChanged [volume_node Sample.v10] Sample.loaded)
           "/proc/out.vtk" (output_sets Sample.py [volume_node Sample.v10])).
  apply list_elem_of_further, list_elem_of_here.
Defined.

(** With a model loaded, a non-empty selection and an accepted save dialog,
    the export shows the dialog and calls the writer once, also when the
    selection resolves to no handle at all, and ends as the writer does;
    with the dialog dismissed the writer is not called. *)
Theorem export_with_selection_calls_writer_once
    py output_path self model :
  dag_model self = Some model →
  selectedItems (tree_widget self) ≠ [] →
  export_selected_entities py (Some output_path) self
  = ([save_dialog_exec;
      write_file output_path
        (output_sets py (selectedItems (tree_widget self)))],
     DAGModel.mb_write_file model output_path
       (output_sets py (selectedItems (tree_widget self))))
  ∧ export_selected_entities py None self = ([save_dialog_exec], None).
Proof.
  intros Hm Hsel. unfold export_selected_entities.
  by rewrite bool_decide_eq_false_2, Hm by done.
Qed.

Lemma export_with_selection_calls_writer_once_witness :
  dag_model (itemSelectionChanged [volume_node Sample.v10] Sample.loaded)
  = Some Sample.model
  ∧ selectedItems
      (tree_widget (itemSelectionChanged [volume_node Sample.v10] Sample.loaded))
    ≠ []
  ∧ export_selected_entities Sample.py None
      (itemSelectionChanged [volume_node Sample.v10] Sample.loaded)
    = ([save_dialog_exec], None).
Proof.
  split; [reflexivity|]. split; [discriminate|].
  apply (export_with_selection_calls_writer_once Sample.py "out.vtk"
           (itemSelectionChanged [volume_node Sample.v10] Sample.loaded)
           Sample.model).
  - reflexivity.
  - discriminate.
Defined.

(** ** Resolving a selection *)

(** The resolved handles grow with the selection: every handle resolved
    from a selection is resolved from any selection holding the same
    items, whatever else it holds. *)
Theorem output_handles_monotone (sel1 sel2 : list QTreeWidgetItem) :
  sel1 ⊆ sel2 → output_handles sel1 ⊆ output_handles sel2.
Proof.
  intros Hsub h. rewrite !output_handles_bind, !elem_of_handles.
  intros (s & (item & Hs & Hitem)%list_elem_of_bind & <-).
  exists s. split; [|done]. apply list_elem_of_bind.
  exists item. split; [done|]. by apply Hsub.
Qed.

Lemma output_handles_monotone_witness :
  [surface_node Sample.s100] ⊆ [volume_node Sample.v10; surface_node Sample.s100]
  ∧ output_handles [surface_node Sample.s100]
    ⊆ output_handles [volume_node Sample.v10; surface_node Sample.s100].
Proof.
  assert ([surface_node Sample.s100]
          ⊆ [volume_node Sample.v10; surface_node Sample.s100]) as Hsub.
  { intros item Hitem. apply list_elem_of_singleton in Hitem as ->.
    apply list_elem_of_further, list_elem_of_here. }
  split; [exact Hsub|].
  apply (output_handles_monotone [surface_node Sample.s100]
           [volume_node Sample.v10; surface_node Sample.s100]).
  exact Hsub.
Defined.

(** The order in which Qt reports the selected items does not change what
    is exported: two selections that are permutations of each other resolve
    to the same set, and the lists handed to the writer hold the same
    handles, each once; only their order may differ. *)
Theorem output_handles_order_independent py
    (sel1 sel2 : list QTreeWidgetItem) :
  sel1 ≡ₚ sel2 →
  output_handles sel1 = output_handles sel2
  ∧ output_sets py sel1 ≡ₚ output_sets py sel2.
Proof.
  intros Hperm.
  assert (output_handles sel1 = output_handles sel2) as Heq.
  { apply set_eq. intros h. split; apply output_handles_monotone.
    - intros item. by rewrite Hperm.
    - intros item. by rewrite Hperm. }
  split; [done|].
  apply NoDup_Permutation; [apply NoDup_output_sets..|].
  intros h. by rewrite !elem_of_output_sets_handles, Heq.
Qed.

Lemma output_handles_order_independent_witness :
  [group_node Sample.g2; surface_node Sample.s100]
    ≡ₚ [surface_node Sample.s100; group_node Sample.g2]
  ∧ output_handles [group_node Sample.g2; surface_node Sample.s100]
    = output_handles [surface_node Sample.s100; group_node Sample.g2].
Proof.
  split; [apply perm_swap|].
  apply (output_handles_order_independent Sample.py
           [group_node Sample.g2; surface_node Sample.s100]
           [surface_node Sample.s100; group_node Sample.g2]).
  apply perm_swap.
Defined.

(** In any selection a handle counts once: an item whose handles are
    already resolved by the rest of the selection changes neither the
    resolved set nor the handles handed to the writer, and that list never
    holds a handle twice.  So a Surface selected together with a Volume or a
    Group that lists it, or reached through two selected parents, is
    exported once. *)
Theorem resolved_handles_counted_once py item
    (sel : list QTreeWidgetItem) :
  output_handles [item] ⊆ output_handles sel →
  output_handles (item :: sel) = output_handles sel
  ∧ NoDup (output_sets py (item :: sel))
  ∧ output_sets py (item :: sel) ≡ₚ output_sets py sel
  ∧ length (output_sets py (item :: sel)) = size (output_handles sel).
Proof.
  intros Hsub.
  assert (output_handles (item :: sel) = output_handles sel) as Heq.
  { rewrite output_handles_cons, <- output_handles_single. set_solver. }
  assert (output_sets py (item :: sel) ≡ₚ output_sets py sel) as Hperm.
  { apply NoDup_Permutation; [apply NoDup_output_sets..|].
    intros h. by rewrite !elem_of_output_sets_handles, Heq. }
  split_and!; [done|apply NoDup_output_sets|done|].
  rewrite Hperm. unfold size, set_size. simpl.
  apply Permutation_length, NoDup_Permutation;
    [apply NoDup_output_sets|apply NoDup_elements|].
  intros h. by rewrite elem_of_output_sets_handles, elem_of_elements.
Qed.

Lemma resolved_handles_counted_once_witness :
  output_handles [surface_node Sample.s100]
    ⊆ output_handles [volume_node Sample.v10]
  ∧ output_handles [surface_node Sample.s100; volume_node Sample.v10]
    = output_handles [volume_node Sample.v10].
Proof.
  assert (output_handles [surface_node Sample.s100]
            ⊆ output_handles [volume_node Sample.v10]) as Hsub.
  { apply (bool_decide_unpack _). by vm_compute. }
  split; [exact Hsub|].
  apply (resolved_handles_counted_once Sample.py (surface_node Sample.s100)
           [volume_node Sample.v10]).
  exact Hsub.
Defined.

(** In the built tree a Volume node, whether under "Volumes" or under a
    Group, stands for its Surface nodes: it carries exactly one child per
    surface of the volume, and selecting the Volume node resolves to the
    same handles as selecting all of its children. *)
Theorem volume_node_resolves_as_its_children self model V :
  dag_model self = Some model →
  V ∈ category_children "Volumes" (tree_widget (populate_tree self))
  ∨ (∃ G, G ∈ category_children "Groups" (tree_widget (populate_tree self))
          ∧ V ∈ children G) →
  ∃ v, data V = Some (AVolume v)
       ∧ children V = surface_node <$> Volume.surfaces v
       ∧ output_handles [V] = handles (Volume.surfaces v)
       ∧ output_handles [V] = output_handles (children V).
Proof.
  intros Hm HV.
  assert (∃ v, V = volume_node v) as [v ->].
  { destruct HV as [HV|(G & HG & HV)].
    - rewrite (category_children_volumes _ _ Hm) in HV.
      apply list_elem_of_fmap in HV as (v & -> & _). by exists v.
    - rewrite (category_children_groups _ _ Hm) in HG.
      apply list_elem_of_fmap in HG as (g & -> & _). simpl in HV.
      apply list_elem_of_fmap in HV as (v & -> & _). by exists v. }
  exists v. simpl.
  by rewrite output_handles_single, output_handles_surface_nodes.
Qed.

Lemma volume_node_resolves_as_its_children_witness :
  dag_model Sample.loaded = Some Sample.model
  ∧ ∃ v, data (volume_node Sample.v10) = Some (AVolume v)
         ∧ children (volume_node Sample.v10)
           = surface_node <$> Volume.surfaces v
         ∧ output_handles [volume_node Sample.v10]
           = handles (Volume.surfaces v)
         ∧ output_handles [volume_node Sample.v10]
           = output_handles (children (volume_node Sample.v10)).
Proof.
  split; [reflexivity|].
  apply (volume_node_resolves_as_its_children Sample.loaded Sample.model
           (volume_node Sample.v10)).
  - reflexivity.
  - left. apply list_elem_of_here.
Defined.

(** Selecting every child of "Volumes" resolves to the handles of the
    surfaces of the top-level volumes; selecting every child of "Groups"
    resolves to the handles the library reports for the groups
    themselves. *)
Theorem whole_category_resolves self model :
  dag_model self = Some model →
  output_handles (category_children "Volumes" (tree_widget (populate_tree self)))
  = handles (DAGModel.volumes model ≫= Volume.surfaces)
  ∧ output_handles
      (category_children "Groups" (tree_widget (populate_tree self)))
    = handles (DAGModel.groups model ≫= Group.surfaces).
Proof.
  intros Hm.
  rewrite (category_children_volumes _ _ Hm), (category_children_groups _ _ Hm).
  rewrite !output_handles_bind. split; f_equal.
  - induction (DAGModel.volumes model) as [|v l IH]; [done|].
    by rewrite fmap_cons, !bind_cons, IH.
  - induction (DAGModel.groups model) as [|g l IH]; [done|].
    by rewrite fmap_cons, !bind_cons, IH.
Qed.

Lemma whole_category_resolves_witness :
  dag_model Sample.loaded = Some Sample.model
  ∧ output_handles
      (category_children "Volumes" (tree_widget (populate_tree Sample.loaded)))
    = handles (DAGModel.volumes Sample.model ≫= Volume.surfaces).
Proof.
  split; [reflexivity|].
  apply (whole_category_resolves Sample.loaded Sample.model).
  reflexivity.
Defined.

(** ** The nodes of the built tree *)

Lemma elem_of_subtree_volume_node v item :
  item ∈ subtree (volume_node v) →
  item = volume_node v
  ∨ ∃ s, s ∈ Volume.surfaces v ∧ item = surface_node s.
Proof.
  simpl. rewrite elem_of_cons, list_elem_of_bind.
  intros [->|(n & Hitem & Hn)]; [by left|right].
  apply list_elem_of_fmap in Hn as (s & -> & Hs). exists s.
  simpl in Hitem. by apply list_elem_of_singleton in Hitem.
Qed.

Lemma elem_of_subtree_group_node g item :
  item ∈ subtree (group_node g) →
  item = group_node g
  ∨ ∃ v, v ∈ Group.volumes g ∧ item ∈ subtree (volume_node v).
Proof.
  simpl. rewrite elem_of_cons, list_elem_of_bind.
  intros [->|(n & Hitem & Hn)]; [by left|right].
  apply list_elem_of_fmap in Hn as (v & -> & Hv). by exists v.
Qed.

Lemma volume_node_belongs model v item :
  volume_of model v →
  item ∈ subtree (volume_node v) →
  ∃ entity, data item = Some entity ∧ belongs_to model entity.
Proof.
  intros Hv [->|(s & Hs & ->)]%elem_of_subtree_volume_node.
  - by exists (AVolume v).
  - exists (ASurface s). split; [done|]. right. by exists v.
Qed.

Lemma expected_tree_nodes model item :
  item ∈ expected_tree model ≫= subtree →
  item ∈ expected_tree model ∧ data item = None
  ∨ ∃ entity, data item = Some entity ∧ belongs_to model entity.
Proof.
  intros (root & Hitem & Hroot)%list_elem_of_bind.
  unfold expected_tree in Hroot.
  rewrite !elem_of_cons, elem_of_nil in Hroot.
  destruct Hroot as [->|[->|[->|[]]]];
    simpl in Hitem; apply elem_of_cons in Hitem as [->|Hitem].
  - left. split; [apply list_elem_of_here|done].
  - right. apply list_elem_of_bind in Hitem as (G & Hitem & HG).
    apply list_elem_of_fmap in HG as (g & -> & Hg).
    apply elem_of_subtree_group_node in Hitem as [->|(v & Hv & Hitem)].
    + by exists (AGroup g).
    + apply (volume_node_belongs model v); [|done]. right. by exists g.
  - left. split; [apply list_elem_of_further, list_elem_of_here|done].
  - right. apply list_elem_of_bind in Hitem as (V & Hitem & HV).
    apply list_elem_of_fmap in HV as (v & -> & Hv).
    apply (volume_node_belongs model v); [by left|done].
  - left. split; [do 2 apply list_elem_of_further; apply list_elem_of_here|done].
  - right. apply list_elem_of_bind in Hitem as (S & Hitem & HS).
    apply list_elem_of_fmap in HS as (s & -> & Hs).
    simpl in Hitem. apply list_elem_of_singleton in Hitem as ->.
    exists (ASurface s). split; [done|]. by left.
Qed.

Lemma belongs_to_model_surfaces model entity s :
  belongs_to model entity →
  s ∈ contribution (Some entity) →
  s ∈ model_surfaces model.
Proof.
  assert (∀ v, volume_of model v → s ∈ Volume.surfaces v →
               s ∈ model_surfaces model) as Hvol.
  { intros v [Hv|(g & Hg & Hv)] Hs; unfold model_surfaces;
      rewrite !elem_of_app, !list_elem_of_bind.
    - right; left. by exists v.
    - do 3 right. exists g. split; [|done].
      apply list_elem_of_bind. by exists v. }
  destruct entity as [g|v|s']; simpl.
  - intros Hg Hs. unfold model_surfaces.
    rewrite !elem_of_app, !list_elem_of_bind.
    do 2 right; left. by exists g.
  - apply Hvol.
  - intros Hs' ->%list_elem_of_singleton.
    destruct Hs' as [Hs'|(v & Hv & Hs')]; [|by apply (Hvol v)].
    unfold model_surfaces. rewrite !elem_of_app. by left.
Qed.

(** Every item of the built tree other than the three category roots
    carries an entity that the loaded model reports: a group of the model, a
    volume listed at top level or by one of the groups, or a surface listed
    at top level or by one of those volumes.  The roots are the only items
    without an entity. *)
Theorem tree_nodes_carry_model_entities self model item :
  dag_model self = Some model →
  item ∈ tree_nodes (tree_widget (populate_tree self)) →
  (item ∈ topLevelItems (tree_widget (populate_tree self)) ∧ data item = None)
  ∨ (∃ entity, data item = Some entity ∧ belongs_to model entity).
Proof.
  intros Hm. unfold tree_nodes. rewrite (populate_tree_items _ _ Hm).
  apply expected_tree_nodes.
Qed.

Lemma tree_nodes_carry_model_entities_witness :
  dag_model Sample.loaded = Some Sample.model
  ∧ surface_node Sample.s101
      ∈ tree_nodes (tree_widget (populate_tree Sample.loaded))
  ∧ ((surface_node Sample.s101
        ∈ topLevelItems (tree_widget (populate_tree Sample.loaded))
      ∧ data (surface_node Sample.s101) = None)
     ∨ (∃ entity, data (surface_node Sample.s101) = Some entity
                  ∧ belongs_to Sample.model entity)).
Proof.
  assert (surface_node Sample.s101
            ∈ tree_nodes (tree_widget (populate_tree Sample.loaded))) as Hin.
  { do 4 apply list_elem_of_further. apply list_elem_of_here. }
  split; [reflexivity|]. split; [exact Hin|].
  apply (tree_nodes_carry_model_entities Sample.loaded Sample.model
           (surface_node Sample.s101)).
  - reflexivity.
  - exact Hin.
Defined.

(** ** What holds in every state of a running viewer *)

Lemma consistent_populate_tree self : consistent (populate_tree self).
Proof.
  split.
  - destruct (dag_model self) as [model|] eqn:Hm.
    + rewrite (populate_tree_items _ _ Hm).
      unfold populate_tree. by rewrite Hm.
    + unfold populate_tree. by rewrite Hm.
  - rewrite populate_tree_selection. constructor.
Qed.

Lemma consistent_load_file DAGModel_new file_dialog self :
  consistent self → consistent (load_file DAGModel_new file_dialog self).1.
Proof.
  intros Hself. unfold load_file, load_from_file.
  destruct file_dialog as [file_name|]; [|done].
  destruct (DAGModel_new file_name); [done|]. apply consistent_populate_tree.
Qed.

Lemma consistent_new DAGModel_new filename self :
  DAGMCViewer_new DAGModel_new filename = (self, None) → consistent self.
Proof.
  assert (consistent init) as Hinit by (split; [done|constructor]).
  unfold DAGMCViewer_new, load_from_file.
  destruct filename as [file_name|]; [|by intros [= <-]].
  case_bool_decide; [|by intros [= <-]].
  destruct (DAGModel_new file_name); [done|].
  intros [= <-]. apply consistent_populate_tree.
Qed.

Lemma consistent_reset_view self : consistent (reset_view self).
Proof. split; [done|constructor]. Qed.

Lemma consistent_itemSelectionChanged selection self :
  consistent self →
  Forall (λ item, item ∈ tree_nodes (tree_widget self)) selection →
  consistent (itemSelectionChanged selection self).
Proof. intros [Htree _] Hsel. by split. Qed.

Lemma consistent_no_model_no_selection self :
  consistent self → dag_model self = None →
  selectedItems (tree_widget self) = [].
Proof.
  intros [Htree Hsel] Hm. rewrite Hm in Htree.
  unfold tree_nodes in Hsel. rewrite Htree in Hsel.
  destruct (selectedItems (tree_widget self)) as [|item sel]; [done|].
  apply Forall_cons in Hsel as [Hitem _]. by apply elem_of_nil in Hitem.
Qed.

(** In every state a running viewer can be in, the tree shows exactly the
    loaded model (three categories built from it, or no item at all when no
    model is loaded), and every selected item is an item of that tree: after
    a reload or a reset nothing of the previous model stays displayed or
    selected. *)
Theorem reachable_consistent DAGModel_new self :
  reachable DAGModel_new self → consistent self.
Proof.
  induction 1 as [filename self Hnew|file_dialog self _ IH|self _ _
                  |selection self _ IH Hsel].
  - by apply (consistent_new DAGModel_new filename).
  - by apply consistent_load_file.
  - apply consistent_reset_view.
  - by apply consistent_itemSelectionChanged.
Qed.

Lemma reachable_consistent_witness :
  reachable Sample.DAGModel_new
    (itemSelectionChanged [volume_node Sample.v10] Sample.loaded)
  ∧ consistent (itemSelectionChanged [volume_node Sample.v10] Sample.loaded).
Proof.
  assert (reachable Sample.DAGModel_new
            (itemSelectionChanged [volume_node Sample.v10] Sample.loaded))
    as Hreach.
  { apply reachable_select.
    - by apply (reachable_new _ (Some "model.h5m")).
    - constructor; [|constructor].
      do 2 apply list_elem_of_further. apply list_elem_of_here. }
  split; [exact Hreach|].
  apply (reachable_consistent Sample.DAGModel_new
           (itemSelectionChanged [volume_node Sample.v10] Sample.loaded)).
  exact Hreach.
Defined.

(** In every state a running viewer can be in, an exception leaves the
    export method only when the writer was called and raised it: the
    attribute access on a missing model is never reached, because without a
    model the tree is empty and nothing can be selected.  When the writer
    returns, so does the export. *)
Theorem reachable_export_raises_only_from_writer
    DAGModel_new py self file_dialog e :
  reachable DAGModel_new self →
  (export_selected_entities py file_dialog self).2 = Some e →
  ∃ model output_path,
    dag_model self = Some model
    ∧ file_dialog = Some output_path
    ∧ selectedItems (tree_widget self) ≠ []
    ∧ write_file output_path
        (output_sets py (selectedItems (tree_widget self)))
      ∈ (export_selected_entities py file_dialog self).1
    ∧ DAGModel.mb_write_file model output_path
        (output_sets py (selectedItems (tree_widget self))) = Some e.
Proof.
  intros Hself%reachable_consistent. unfold export_selected_entities.
  case_bool_decide as Hsel; [done|].
  destruct file_dialog as [output_path|]; [|done].
  destruct (dag_model self) as [model|] eqn:Hm.
  - simpl. intros Hw. exists model, output_path.
    split_and!; [done..| |done].
    apply list_elem_of_further, list_elem_of_here.
  - by destruct Hsel; apply consistent_no_model_no_selection.
Qed.

Lemma reachable_export_raises_only_from_writer_witness :
  reachable Sample.DAGModel_new
    (itemSelectionChanged [volume_node Sample.v10] Sample.loaded)
  ∧ (export_selected_entities Sample.py (Some "/proc/out.vtk")
       (itemSelectionChanged [volume_node Sample.v10] Sample.loaded)).2
    = Some (RuntimeError "write failed")
  ∧ ∃ model output_path,
      dag_model (itemSelectionChanged [volume_node Sample.v10] Sample.loaded)
      = Some model
      ∧ Some "/proc/out.vtk" = Some output_path
      ∧ selectedItems
          (tree_widget
             (itemSelectionChanged [volume_node Sample.v10] Sample.loaded))
        ≠ []
      ∧ write_file output_path
          (output_sets Sample.py
             (selectedItems
                (tree_widget
                   (itemSelectionChanged [volume_node Sample.v10]
                      Sample.loaded))))
        ∈ (export_selected_entities Sample.py (Some "/proc/out.vtk")
             (itemSelectionChanged [volume_node Sample.v10] Sample.loaded)).1
      ∧ DAGModel.mb_write_file model output_path
          (output_sets Sample.py
             (selectedItems
                (tree_widget
                   (itemSelectionChanged [volume_node Sample.v10]
                      Sample.loaded))))
        = Some (RuntimeError "write failed").
Proof.
  assert (reachable Sample.DAGModel_new
            (itemSelectionChanged [volume_node Sample.v10] Sample.loaded))
    as Hreach.
  { apply reachable_select.
    - by apply (reachable_new _ (Some "model.h5m")).
    - constructor; [|constructor].
      do 2 apply list_elem_of_further. apply list_elem_of_here. }
  split; [exact Hreach|]. split; [reflexivity|].
  apply (reachable_export_raises_only_from_writer Sample.DAGModel_new
           Sample.py
           (itemSelectionChanged [volume_node Sample.v10] Sample.loaded)
           (Some "/proc/out.vtk") (RuntimeError "write failed")).
  - exact Hreach.
  - reflexivity.
Defined.

(** In every state a running viewer can be in, whatever the writer is
    given is a handle of a surface that the model loaded at that moment
    reports (at top level, for a volume or for a group): handles of a model
    loaded earlier are never exported. *)
Theorem reachable_export_handles_of_current_model
    DAGModel_new py self file_dialog output_path handles_written :
  reachable DAGModel_new self →
  write_file output_path handles_written
    ∈ (export_selected_entities py file_dialog self).1 →
  ∃ model, dag_model self = Some model
           ∧ ∀ h, h ∈ handles_written →
                  ∃ s, s ∈ model_surfaces model ∧ Surface.handle s = h.
Proof.
  intros [Htree Hsel]%reachable_consistent. unfold export_selected_entities.
  case_bool_decide; [by intros ?%elem_of_nil|].
  destruct file_dialog as [path|];
    [|by intros [|?%elem_of_nil]%elem_of_cons].
  destruct (dag_model self) as [model|];
    [|by intros [|?%elem_of_nil]%elem_of_cons].
  simpl. rewrite !elem_of_cons, elem_of_nil.
  intros [|[[= <- ->]|[]]]; [done|].
  exists model. split; [done|].
  intros h (item & s & Hitem & Hs & <-)%elem_of_output_sets. exists s.
  split; [|done].
  rewrite Forall_forall in Hsel. apply Hsel in Hitem.
  unfold tree_nodes in Hitem. rewrite Htree in Hitem.
  apply expected_tree_nodes in Hitem as [[_ Hd]|(entity & Hd & Hent)];
    rewrite Hd in Hs.
  - by apply elem_of_nil in Hs.
  - by apply (belongs_to_model_surfaces model entity).
Qed.

Lemma reachable_export_handles_of_current_model_witness :
  reachable Sample.DAGModel_new
    (itemSelectionChanged [volume_node Sample.v10] Sample.loaded)
  ∧ ∃ model,
      dag_model (itemSelectionChanged [volume_node Sample.v10] Sample.loaded)
      = Some model
      ∧ ∀ h, h ∈ output_sets Sample.py [volume_node Sample.v10] →
             ∃ s, s ∈ model_surfaces model ∧ Surface.handle s = h.
Proof.
  assert (reachable Sample.DAGModel_new
            (itemSelectionChanged [volume_node Sample.v10] Sample.loaded))
    as Hreach.
  { apply reachable_select.
    - by apply (reachable_new _ (Some "model.h5m")).
    - constructor; [|constructor].
      do 2 apply list_elem_of_further. apply list_elem_of_here. }
  split; [exact Hreach|].
  apply (reachable_export_handles_of_current_model Sample.DAGModel_new
           Sample.py
           (itemSelectionChanged [volume_node Sample.v10] Sample.loaded)
           (Some "out.vtk") "out.vtk"
           (output_sets Sample.py [volume_node Sample.v10])).
  - exact Hreach.
  - apply list_elem_of_further, list_elem_of_here.
Defined.

(** ** Labels *)

Lemma occurs_colon_pretty_N_go x s :
  occurs ":"%char (pretty_N_go x s) = occurs ":"%char s.
Proof.
  revert s. induction (N.lt_wf_0 x) as [x _ IH]; intros s.
  assert (x = 0 ∨ 0 < x)%N as [->|Hx] by lia.
  - by rewrite pretty_N_go_0.
  - rewrite pretty_N_go_step by done. rewrite IH by (by apply N.div_lt).
    simpl. unfold pretty_N_char. by repeat case_match.
Qed.

Lemma occurs_colon_pretty_N (x : N) : occurs ":"%char (pretty x) = false.
Proof.
  unfold pretty, pretty_N. case_decide; [done|].
  by rewrite occurs_colon_pretty_N_go.
Qed.

Lemma occurs_colon_pretty_Z (x : Z) : occurs ":"%char (pretty x) = false.
Proof.
  destruct x as [|p|p]; [done|apply occurs_colon_pretty_N|].
  unfold pretty, pretty_Z. simpl. apply (occurs_colon_pretty_N (N.pos p)).
Qed.

Lemma split_at_first c s1 s2 r1 r2 :
  occurs c s1 = false → occurs c s2 = false →
  s1 +:+ String c r1 = s2 +:+ String c r2 → s1 = s2 ∧ r1 = r2.
Proof.
  revert s2. induction s1 as [|a s1 IH]; intros [|b s2]; simpl.
  - by intros _ _ [= ->].
  - intros _ Hb [= <- _]. by rewrite bool_decide_eq_true_2 in Hb.
  - intros Ha _ [= -> _]. by rewrite bool_decide_eq_true_2 in Ha.
  - intros [_ Ha]%orb_false_elim [_ Hb]%orb_false_elim [= -> Heq].
    destruct (IH s2 Ha Hb Heq) as [-> ->]. done.
Qed.

(** Among the Volume nodes of the built tree the label tells the
    identifier: two of them read the same exactly when their volumes have
    the same id. *)
Theorem volume_labels_identify_ids self model V1 V2 v1 v2 :
  dag_model self = Some model →
  V1 ∈ category_children "Volumes" (tree_widget (populate_tree self)) →
  V2 ∈ category_children "Volumes" (tree_widget (populate_tree self)) →
  data V1 = Some (AVolume v1) →
  data V2 = Some (AVolume v2) →
  text V1 = text V2 ↔ Volume.id v1 = Volume.id v2.
Proof.
  intros Hm HV1 HV2. rewrite (category_children_volumes _ _ Hm) in HV1, HV2.
  apply list_elem_of_fmap in HV1 as (v1' & -> & _).
  apply list_elem_of_fmap in HV2 as (v2' & -> & _).
  intros [= <-] [= <-]. simpl. unfold volume_label. split.
  - intros Heq%(inj (String.append "Volume ")). by apply (inj pretty).
  - by intros ->.
Qed.

Lemma volume_labels_identify_ids_witness :
  dag_model Sample.loaded3 = Some Sample.model3
  ∧ volume_node Sample.v10
      ∈ category_children "Volumes" (tree_widget (populate_tree Sample.loaded3))
  ∧ volume_node Sample.v11
      ∈ category_children "Volumes" (tree_widget (populate_tree Sample.loaded3))
  ∧ (text (volume_node Sample.v10) = text (volume_node Sample.v11)
     ↔ Volume.id Sample.v10 = Volume.id Sample.v11)
  ∧ text (volume_node Sample.v10) ≠ text (volume_node Sample.v11).
Proof.
  assert (text (volume_node Sample.v10) = text (volume_node Sample.v11)
          ↔ Volume.id Sample.v10 = Volume.id Sample.v11) as Hiff.
  { apply (volume_labels_identify_ids Sample.loaded3 Sample.model3
             (volume_node Sample.v10) (volume_node Sample.v11)
             Sample.v10 Sample.v11).
    - reflexivity.
    - apply list_elem_of_here.
    - apply list_elem_of_further, list_elem_of_here.
    - reflexivity.
    - reflexivity. }
  split; [reflexivity|].
  split; [apply list_elem_of_here|].
  split; [apply list_elem_of_further, list_elem_of_here|].
  split; [exact Hiff|].
  intros Heq. apply Hiff in Heq. discriminate Heq.
Defined.

(** Among the Group nodes of the built tree the label tells identifier and
    name: two of them read the same exactly when their groups agree on
    both, whatever characters the names hold. *)
Theorem group_labels_identify_id_and_name self model G1 G2 g1 g2 :
  dag_model self = Some model →
  G1 ∈ category_children "Groups" (tree_widget (populate_tree self)) →
  G2 ∈ category_children "Groups" (tree_widget (populate_tree self)) →
  data G1 = Some (AGroup g1) →
  data G2 = Some (AGroup g2) →
  text G1 = text G2
  ↔ Group.id g1 = Group.id g2 ∧ Group.name g1 = Group.name g2.
Proof.
  intros Hm HG1 HG2. rewrite (category_children_groups _ _ Hm) in HG1, HG2.
  apply list_elem_of_fmap in HG1 as (g1' & -> & _).
  apply list_elem_of_fmap in HG2 as (g2' & -> & _).
  intros [= <-] [= <-]. simpl. unfold group_label. split.
  - intros Heq%(inj (String.append "Group ")).
    apply split_at_first in Heq as [Hid Hname];
      [|apply occurs_colon_pretty_Z..].
    split; [by apply (inj pretty)|]. by injection Hname.
  - by intros [-> ->].
Qed.

Lemma group_labels_identify_id_and_name_witness :
  dag_model Sample.loaded3 = Some Sample.model3
  ∧ group_node Sample.g1
      ∈ category_children "Groups" (tree_widget (populate_tree Sample.loaded3))
  ∧ group_node Sample.g2
      ∈ category_children "Groups" (tree_widget (populate_tree Sample.loaded3))
  ∧ (text (group_node Sample.g1) = text (group_node Sample.g2)
     ↔ Group.id Sample.g1 = Group.id Sample.g2
       ∧ Group.name Sample.g1 = Group.name Sample.g2)
  ∧ text (group_node Sample.g1) ≠ text (group_node Sample.g2).
Proof.
  assert (text (group_node Sample.g1) = text (group_node Sample.g2)
          ↔ Group.id Sample.g1 = Group.id Sample.g2
            ∧ Group.name Sample.g1 = Group.name Sample.g2) as Hiff.
  { apply (group_labels_identify_id_and_name Sample.loaded3 Sample.model3
             (group_node Sample.g1) (group_node Sample.g2)
             Sample.g1 Sample.g2).
    - reflexivity.
    - apply list_elem_of_here.
    - apply list_elem_of_further, list_elem_of_here.
    - reflexivity.
    - reflexivity. }
  split; [reflexivity|].
  split; [apply list_elem_of_here|].
  split; [apply list_elem_of_further, list_elem_of_here|].
  split; [exact Hiff|].
  intros Heq. apply Hiff in Heq. destruct Heq as [Hid _]. discriminate Hid.
Defined.
